(** * The mock policy manager of the fybrik manager, and the readiness report
      its controllers' tests rely on

    Source files:
    - [manager/controllers/mockup/policymanager.go]: [GetPoliciesDecisions],
      the test double for the governance engine, and its helper
      [deserializeToTaxonomyAction];
    - [manager/controllers/app/fybrik_notebook_read_flow_test.go]: the
      notebook read-flow test, which waits for a ready application, the
      only trace of the reconciliation controller in the sources; its
      helper [RunPortForwardCommandWithRetryAttemps] and the service name it
      cuts out of a module's hostname.

    Go strings are byte sequences and are modelled by [string]; a
    [map[string]interface{}] is a [gmap string JSON]; the global logger and
    the entropy source are an explicit [World] that every call threads
    through; a Go [panic] is a distinguished completion, kept apart from a
    returned [error]. *)

From stdpp Require Import gmap strings list fin_maps.
From Stdlib Require Import Ascii String.

Open Scope string_scope.
Set Default Proof Using "Type".

(** ** Go's return convention *)

(** The Go type [error], as the message [Error()] gives. *)
Inductive error : Type := errorString (msg : string).

Definition Error (e : error) : string := let 'errorString msg := e in msg.

(** A [(T, error)] pair of results: [(v, nil)] is [Ok v], [(nil, err)] is
    [Err err]. *)
Inductive result (A : Type) : Type :=
  | Ok (v : A)
  | Err (e : error).
Arguments Ok {A} v.
Arguments Err {A} e.

(** ** package strings *)

Module strings.

(** [strings.Index(s, substr)]: position of the first occurrence, counted in
    bytes. Go answers [-1] when there is none; here that is [None]. *)
Definition Index (s substr : string) : option nat := String.index 0 substr s.

(** [s[i:]] *)
Definition from (i : nat) (s : string) : string :=
  String.substring i (String.length s - i) s.

(** [s[:i]] *)
Definition upto (i : nat) (s : string) : string := String.substring 0 i s.

(** The loop of [genSplit] with [sepSave = 0]; [k] is [n - 1 - i], the number
    of cuts still allowed:
<<
    for i < n {
        m := Index(s, sep)
        if m < 0 { break }
        a[i] = s[:m+sepSave]
        s = s[m+len(sep):]
        i++
    }
    a[i] = s
>> *)
Fixpoint genSplit_loop (s sep : string) (k : nat) : list string :=
  match k with
  | 0 => [s]
  | S k' =>
      match Index s sep with
      | None => [s]
      | Some m => upto m s :: genSplit_loop (from (m + String.length sep) s) sep k'
      end
  end.

(** [strings.SplitN(s, sep, n)] for a count [n >= 0] and a separator that is
    not empty (the mock passes ["/"] and [2]). [n = 0] gives [nil]; a count
    above [len(s) + 1] is lowered to it, as [genSplit] does. *)
Definition SplitN (s sep : string) (n : nat) : list string :=
  match n with
  | 0 => []
  | _ => genSplit_loop s sep (Nat.min n (String.length s + 1) - 1)
  end.

(** The loop of [strings.Replace] for an [old] that is not empty: the first
    [n] occurrences of [old], found from left to right and not overlapping,
    give way to [new]. *)
Fixpoint Replace_loop (s old new : string) (n : nat) : string :=
  match n with
  | 0 => s
  | S n' =>
      match Index s old with
      | None => s
      | Some j => upto j s +:+ new +:+ Replace_loop (from (j + String.length old) s) old new n'
      end
  end.

(** [strings.Replace(s, old, new, n)] for a count [n >= 0] and an [old] that
    is not empty; [s] comes back as it is when [old == new]. *)
Definition Replace (s old new : string) (n : nat) : string :=
  if String.eqb old new then s else Replace_loop s old new n.

End strings.

(** [occurs c s]: the byte [c] occurs in [s]. A dataset ID is well formed when
    it is [ns ++ "/" ++ name] with no ['/'] in [ns]: [name] is then everything
    after the first ['/']. *)
Fixpoint occurs (c : ascii) (s : string) : bool :=
  match s with
  | EmptyString => false
  | String a s' => Ascii.eqb a c || occurs c s'
  end.

(** ** Generic JSON values: what [interface{}] holds in the mock *)

#[warnings="-register-all"]
Inductive JSON : Type :=
  | JString (s : string)
  | JArray (l : list JSON)
  | JObject (m : gmap string JSON).

(** ** package encoding/json

    A marshalled document is kept as the value it encodes: indentation, key
    order and escaping of the text are not modelled. Every value of the types
    marshalled here (strings, slices of strings, string-keyed maps of them)
    has an encoding, so [MarshalIndent] returns no error on them. *)
Module json.

Inductive Document (A : Type) : Type := Encoded (v : A).
Arguments Encoded {A} v.

Definition MarshalIndent {A : Type} (v : A) (prefix indent : string)
  : result (Document A) := Ok (Encoded v).

End json.

(** ** package taxonomy *)

Module taxonomy.

(** Modelled from the spec: [taxonomy.Action] and its JSON decoding are
    declared outside src/. The spec (3, 6, 9) gives an action as a name, the
    discriminator, with parameters in a generic map ("generic-map based
    decision deserialization"); [GetPoliciesDecisions] builds exactly such
    maps, with the name under ["name"] and the parameters under the name
    itself. *)
Record Action : Type := mkAction {
  Name : string;
  AdditionalProperties : gmap string JSON
}.

(** [taxonomy.Action{}] *)
Definition zero : Action := {| Name := ""; AdditionalProperties := ∅ |}.

(** Modelled from the spec: [json.Unmarshal(bytes, taxAction)] for a
    [*taxonomy.Action], declared outside src/. The field ["name"] must be a
    string and becomes [Name]; the other fields are kept as they are. *)
Definition Unmarshal (doc : json.Document (gmap string JSON)) : result Action :=
  let 'json.Encoded items := doc in
  match items !! "name" with
  | Some (JString n) =>
      Ok {| Name := n; AdditionalProperties := delete "name" items |}
  | _ => Err (errorString "json: cannot unmarshal into Go value of type taxonomy.Action")
  end.

End taxonomy.

(** ** package policymanager *)

Module policymanager.

(** Modelled from the spec: the action type of a request, declared outside
    src/ (spec 3, 6: [type: Read|Write|Copy]); the mock compares it with the
    constant [policymanager.WRITE]. *)
Inductive RequestActionType : Type := READ | WRITE | COPY.

#[global] Instance RequestActionType_eq_dec : EqDecision RequestActionType.
Proof. solve_decision. Defined.

(** Modelled from the spec: the action context of a request (spec 4.1, 6:
    action type, destination, processing location), declared outside src/. *)
Record RequestAction : Type := mkRequestAction {
  ActionType : RequestActionType;
  ProcessingLocation : string;
  Destination : string
}.

(** Modelled from the spec: the resource of a request, declared outside
    src/; the mock reads its [ID] only (spec 6: [resourceID: string]). *)
Record RequestResource : Type := mkResource { ID : string }.

(** Modelled from the spec: the request of the decision query (spec 6),
    declared outside src/; the credentials are a separate argument of
    [GetPoliciesDecisions]. *)
Record GetPolicyDecisionsRequest : Type := mkRequest {
  Action : RequestAction;
  Resource : RequestResource
}.

(** Modelled from the spec: one item of a decision's result (spec 6:
    [{action}]), declared outside src/. Its field [Action] is written
    [Action'] here: the request's field has the name already. *)
Record ResultItem : Type := mkResultItem { Action' : taxonomy.Action }.

(** [policymanager.ResultItem{}] *)
Definition zeroItem : ResultItem := {| Action' := taxonomy.zero |}.

(** Modelled from the spec: the response of the decision query (spec 6:
    [{decisionID, result}]), declared outside src/. *)
Record GetPolicyDecisionsResponse : Type := mkResponse {
  DecisionID : string;
  Result : list ResultItem
}.

End policymanager.

(** ** The world a call runs in *)

(** What the logger is handed. *)
Inductive Printable : Type :=
  | PString (s : string)
  | PError (e : error)
  | PResponse (doc : json.Document policymanager.GetPolicyDecisionsResponse).

(** One call of the global logger: [log.Printf(format, v...)] or
    [log.Print(v...)]. The format is kept with its arguments, not expanded. *)
Inductive LogEvent : Type :=
  | Printf (format : string) (v : list Printable)
  | Print (v : list Printable).

(** How a Go call ends: it returns, or it panics with a value. *)
Inductive Completion (A : Type) : Type :=
  | Normal (a : A)
  | Panic (v : string).
Arguments Normal {A} a.
Arguments Panic {A} v.

(** A replayed entropy source, used to run the model on concrete inputs:
    the outcomes of the coming [random.Hex] calls, in order; once they are
    used up the source fails. *)
Definition Replay : Type := list string.

Definition replay_Hex (n : nat) (r : Replay) : (string * option error) * Replay :=
  match r with
  | [] => (("", Some (errorString "entropy source exhausted")), [])
  | x :: r' => ((x, None), r')
  end.

Section Mock.

(** [random.Hex] is declared outside src/: any source of entropy [Rng] with
    any [Hex] will do. It returns a string and an error, and the state of the
    source after the call. *)
Context {Rng : Type} (random_Hex : nat -> Rng -> (string * option error) * Rng).

Record World : Type := mkWorld {
  logged : list LogEvent;    (* what the logger has received, oldest first *)
  entropy : Rng
}.

Definition Go (A : Type) : Type := World -> Completion A * World.

#[local] Instance Go_ret : MRet Go := fun A a w => (Normal a, w).

#[local] Instance Go_bind : MBind Go := fun A B k c w =>
  match c w with
  | (Normal a, w') => k a w'
  | (Panic v, w') => (Panic v, w')
  end.

Definition panic {A : Type} (v : string) : Go A := fun w => (Panic v, w).

Definition log_Printf (format : string) (v : list Printable) : Go unit :=
  fun w => (Normal tt, {| logged := logged w ++ [Printf format v]; entropy := entropy w |}).

Definition log_Print (v : list Printable) : Go unit :=
  fun w => (Normal tt, {| logged := logged w ++ [Print v]; entropy := entropy w |}).

Definition Hex (n : nat) : Go (string * option error) :=
  fun w => let '(r, g) := random_Hex n (entropy w) in
           (Normal r, {| logged := logged w; entropy := g |}).

(** ** manager/controllers/mockup/policymanager.go *)

(** [fmt.Errorf(format, err)] where [format] ends in [": %v"] *)
Definition fmt_Errorf (before : string) (err : error) : error :=
  errorString (before +:+ Error err).

Definition deserializeToTaxonomyAction (action : gmap string JSON)
  : result taxonomy.Action :=
  match json.MarshalIndent action "" (String "009"%char "") with
  | Err errJSON =>
      Err (fmt_Errorf "error Marshalling in deserializeToTaxonomyAction: " errJSON)
  | Ok actionBytes =>
      match taxonomy.Unmarshal actionBytes with
      | Err err =>
          Err (fmt_Errorf "error in unmarshalling in deserializeToTaxonomyAction: " err)
      | Ok taxAction => Ok taxAction
      end
  end.

(** The map the three denying cases build:
<<
    action := make(map[string]interface{})
    action["name"] = "Deny"
    denyAction := map[string]interface{}{}
    action["Deny"] = denyAction
>> *)
Definition denyMap : gmap string JSON :=
  let action : gmap string JSON := ∅ in
  let action := <["name" := JString "Deny"]> action in
  let denyAction : gmap string JSON := ∅ in
  <["Deny" := JObject denyAction]> action.

(** The map of the default case:
<<
    action := make(map[string]interface{})
    action["name"] = "RedactAction"
    redactAction := make(map[string]interface{})
    redactAction["columns"] = []string{"SSN"}
    action["RedactAction"] = redactAction
>> *)
Definition redactMap : gmap string JSON :=
  let action : gmap string JSON := ∅ in
  let action := <["name" := JString "RedactAction"]> action in
  let redactAction : gmap string JSON := ∅ in
  let redactAction := <["columns" := JArray [JString "SSN"]]> redactAction in
  <["RedactAction" := JObject redactAction]> action.

(** Lines 123-133: what follows the [switch]. *)
Definition respond (respResult : list policymanager.ResultItem)
  : Go (result policymanager.GetPolicyDecisionsResponse) :=
  '(decisionID, _) ← Hex 20;
  let policyManagerResp :=
    {| policymanager.DecisionID := decisionID; policymanager.Result := respResult |} in
  match json.MarshalIndent policyManagerResp "" (String "009"%char "") with
  | Err err =>
      _ ← log_Print [PString "error in marshalling policy manager response :"; PError err];
      mret (Err err)
  | Ok res =>
      _ ← log_Print [PString "Marshalled policy manager response in mockup GetPoliciesDecisions:";
                     PResponse res];
      mret (Ok policyManagerResp)
  end.

(** One case of the [switch] that adds an action: the map is decoded, a
    failure is logged under the scenario's name and returned, a success is
    stored in [policyManagerResult.Action] and appended to [respResult]. *)
Definition addAction (scenario : string) (action : gmap string JSON)
    (policyManagerResult : policymanager.ResultItem)
    (respResult : list policymanager.ResultItem)
  : Go (result policymanager.GetPolicyDecisionsResponse) :=
  match deserializeToTaxonomyAction action with
  | Err err =>
      _ ← log_Print [PString ("error in deserializeToTaxonomyAction for scenario " +:+ scenario);
                     PError err];
      mret (Err err)
  | Ok actionOnDataset =>
      let policyManagerResult := {| policymanager.Action' := actionOnDataset |} in
      respond (respResult ++ [policyManagerResult])
  end.

Definition GetPoliciesDecisions (input : policymanager.GetPolicyDecisionsRequest)
    (creds : string) : Go (result policymanager.GetPolicyDecisionsResponse) :=
  _ ← log_Printf "Received OpenAPI request in mockup GetPoliciesDecisions: " [];
  _ ← log_Printf "ProcessingGeography: %s"
        [PString (policymanager.ProcessingLocation (policymanager.Action input))];
  _ ← log_Printf ("Destination: " +:+ policymanager.Destination (policymanager.Action input)) [];
  let datasetID := policymanager.ID (policymanager.Resource input) in
  _ ← log_Printf ("   DataSetID: " +:+ datasetID) [];
  let respResult : list policymanager.ResultItem := [] in
  let policyManagerResult := policymanager.zeroItem in
  let splittedID := strings.SplitN datasetID "/" 2 in
  match splittedID with
  | [_; assetID] =>
      if String.eqb assetID "allow-dataset" then
        respond respResult
      else if String.eqb assetID "deny-dataset" then
        addAction "deny-dataset :" denyMap policyManagerResult respResult
      else if String.eqb assetID "allow-theshire" then
        if negb (String.eqb (policymanager.Destination (policymanager.Action input)) "theshire")
        then addAction "allow-theshire:" denyMap policyManagerResult respResult
        else respond respResult
      else if String.eqb assetID "deny-write" then
        if bool_decide (policymanager.ActionType (policymanager.Action input) = policymanager.WRITE)
        then addAction "deny-write:" denyMap policyManagerResult respResult
        else respond respResult
      else
        addAction "default:" redactMap policyManagerResult respResult
  | _ => panic ("Invalid dataset ID for mock: " +:+ datasetID)
  end.

End Mock.

(** ** Reading a decision *)

(** The action the denying cases decode to: the name [Deny] with an empty
    parameter map under ["Deny"]. *)
Definition Deny : taxonomy.Action :=
  {| taxonomy.Name := "Deny";
     taxonomy.AdditionalProperties := {[ "Deny" := JObject ∅ ]} |}.

(** A redaction of [columns]: the name [RedactAction] with the columns under
    ["RedactAction"], ["columns"]. *)
Definition Redact (columns : list string) : taxonomy.Action :=
  {| taxonomy.Name := "RedactAction";
     taxonomy.AdditionalProperties :=
       {[ "RedactAction" := JObject {[ "columns" := JArray (JString <$> columns) ]} ]} |}.

Definition isDeny (a : taxonomy.Action) : bool := String.eqb (taxonomy.Name a) "Deny".

(** The enforcement actions of a response, in order. *)
Definition actions (resp : policymanager.GetPolicyDecisionsResponse) : list taxonomy.Action :=
  policymanager.Action' <$> policymanager.Result resp.

(** How a call ended, with the decision ID dropped: a panic, a returned
    error, or the list of enforcement actions. *)
Definition decided (c : Completion (result policymanager.GetPolicyDecisionsResponse))
  : Completion (result (list taxonomy.Action)) :=
  match c with
  | Panic v => Panic v
  | Normal (Err e) => Normal (Err e)
  | Normal (Ok resp) => Normal (Ok (actions resp))
  end.

(** The request for dataset [id] in the action context [action]. *)
Definition requestFor (id : string) (action : policymanager.RequestAction)
  : policymanager.GetPolicyDecisionsRequest :=
  {| policymanager.Action := action; policymanager.Resource := {| policymanager.ID := id |} |}.

(** The asset names the mock treats specially. *)
Definition specialAssets : list string :=
  ["allow-dataset"; "deny-dataset"; "allow-theshire"; "deny-write"].

(** ** The readiness report of the reconciliation controller

    The controller itself is not among the sources; the notebook read-flow
    test only waits for [application.Status.Ready] and then looks at the
    asset's state (lines 193-207 and 280-293). The tick below is written from
    the spec alone. *)

Module app.

(** Modelled from the spec: the status of a condition (spec 3: [{type,
    status, reason}]), declared outside src/, with the three values of a
    Kubernetes condition status. *)
Inductive ConditionStatus : Type := ConditionTrue | ConditionFalse | ConditionUnknown.

#[global] Instance ConditionStatus_eq_dec : EqDecision ConditionStatus.
Proof. solve_decision. Defined.

(** Modelled from the spec: the type of a condition, declared outside src/.
    A tick recomputes the conditions "from {denied, compile error, module
    health}" (spec 4.3): one type for each, readiness being what the health
    of the module decides. *)
Inductive ConditionType : Type := ReadyCondition | DenyCondition | ErrorCondition.

#[global] Instance ConditionType_eq_dec : EqDecision ConditionType.
Proof. solve_decision. Defined.

(** Modelled from the spec: a condition of an AssetState (spec 3: [{type,
    status, reason}]), declared outside src/. *)
Record Condition : Type := mkCondition {
  Type_ : ConditionType;
  Status : ConditionStatus;
  Reason : string
}.

(** Modelled from the spec: the endpoint a module exposes (spec 6:
    [{hostname, port, protocol}]), declared outside src/. *)
Record EndpointSpec : Type := mkEndpoint {
  hostname : string;
  port : nat;
  protocol : string
}.

(** Modelled from the spec: the phase of an asset (spec 3), declared
    outside src/. *)
Inductive AssetPhase : Type := Pending | Denied | Deploying | Ready | Failed.

#[global] Instance AssetPhase_eq_dec : EqDecision AssetPhase.
Proof. solve_decision. Defined.

(** Modelled from the spec: the observed state of one asset (spec 3:
    conditions, endpoint, phase; spec 6: the endpoint is [{hostname, port,
    protocol} | absent]), declared outside src/; the asset ID is the key it
    is stored under. *)
Record AssetState : Type := mkAssetState {
  Conditions : list Condition;
  Endpoint : option EndpointSpec;
  phase : AssetPhase
}.

(** Modelled from the spec: what [Health(handle)] of the module runtime
    answers (spec 6: [{healthy: bool, endpoint}]); the runtime is outside
    src/. A module that exposes no endpoint yet answers with none. *)
Record ModuleHealth : Type := mkHealth {
  healthy : bool;
  endpoint : option EndpointSpec
}.

(** Modelled from the spec: what a tick knows of one requested asset (spec
    4.3: "from {denied, compile error, module health}"), the controller being
    outside src/; an asset with no entry is not deployed yet. *)
Inductive Observed : Type :=
  | ObservedDenied (reason : string)
  | ObservedCompileError (reason : string)
  | ObservedModule (h : ModuleHealth).

(** Modelled from the spec: the conditions of an asset, one of each type;
    the one that is true carries the reason (spec 4.4: "human-readable
    condition reasons for denied/failed assets"). *)
Definition conditions (ready deny err : ConditionStatus) (reason : string) : list Condition :=
  [ {| Type_ := ReadyCondition; Status := ready; Reason := "" |};
    {| Type_ := DenyCondition; Status := deny;
       Reason := if decide (deny = ConditionTrue) then reason else "" |};
    {| Type_ := ErrorCondition; Status := err;
       Reason := if decide (err = ConditionTrue) then reason else "" |} ].

(** Modelled from the spec: the per-asset part of a reconcile tick, which is
    not under src/ (spec 4.3: "recompute each AssetState's phase and
    conditions from {denied, compile error, module health}"; an asset is
    Ready when its "module reports healthy and an endpoint is available";
    spec 4.4: the endpoint is surfaced "when a module exposes one"). *)
Definition recomputeAssetState (o : option Observed) : AssetState :=
  match o with
  | None =>
      {| Conditions := conditions ConditionFalse ConditionFalse ConditionFalse "";
         Endpoint := None; phase := Pending |}
  | Some (ObservedDenied reason) =>
      {| Conditions := conditions ConditionFalse ConditionTrue ConditionFalse reason;
         Endpoint := None; phase := Denied |}
  | Some (ObservedCompileError reason) =>
      {| Conditions := conditions ConditionFalse ConditionFalse ConditionTrue reason;
         Endpoint := None; phase := Failed |}
  | Some (ObservedModule h) =>
      if healthy h && bool_decide (is_Some (endpoint h))
      then {| Conditions := conditions ConditionTrue ConditionFalse ConditionFalse "";
              Endpoint := endpoint h; phase := Ready |}
      else {| Conditions := conditions ConditionFalse ConditionFalse ConditionFalse "";
              Endpoint := endpoint h; phase := Deploying |}
  end.

(** Modelled from the spec: the phase of a request (spec 3, 4.3), declared
    outside src/. *)
Inductive RequestPhase : Type :=
  | Initializing | PlanPending | RequestDeploying | RequestReady
  | PartiallyReady | RequestFailed | Terminating.

#[global] Instance RequestPhase_eq_dec : EqDecision RequestPhase.
Proof. solve_decision. Defined.

(** Modelled from the spec: the compilation policy (spec 4.2, item 4),
    declared outside src/. *)
Inductive CompilationPolicy : Type := Partial | AllOrNothing.

(** Modelled from the spec: how a denied asset counts in the aggregate
    phase, on which the spec has two sentences. Spec 4.3 has the request
    Ready "iff all requested non-denied assets are Ready (denied assets count
    as acknowledged-terminal, not blocking)": [DeniedAcknowledged]. Spec 8,
    Scenario B, and the transition to PartiallyReady have a request with a
    denied asset beside ready ones PartiallyReady: [DeniedMixed]. *)
Inductive DeniedReading : Type := DeniedAcknowledged | DeniedMixed.

Definition isPhase (p : AssetPhase) (st : AssetState) : bool := bool_decide (phase st = p).

(** An asset that does not keep the request from being Ready. *)
Definition settled (reading : DeniedReading) (st : AssetState) : bool :=
  isPhase Ready st
  || match reading with
     | DeniedAcknowledged => isPhase Denied st
     | DeniedMixed => false
     end.

(** Modelled from the spec: the aggregate phase, which is not under src/
    (spec 4.3: Ready when every requested asset is settled, in the reading
    taken of a denied one; "[PartiallyReady] if mixed", "a mix of
    Ready/Denied/still-pending/Failed assets"; "[Failed] if any asset is
    [Failed] under all-or-nothing policy"). *)
Definition recomputePhase (reading : DeniedReading) (policy : CompilationPolicy)
    (states : list AssetState) : RequestPhase :=
  let failed :=
    match policy with
    | AllOrNothing => existsb (isPhase Failed) states
    | Partial => false
    end in
  if failed then RequestFailed
  else if forallb (settled reading) states then RequestReady
  else if existsb (fun st => isPhase Ready st || isPhase Denied st || isPhase Failed st) states
  then PartiallyReady
  else RequestDeploying.

(** Modelled from the spec: the status surfaced to the caller (spec 3, 6:
    readiness, phase, asset states by asset ID), declared outside src/. The
    field [Ready] is written [Ready_] here: an asset's phase has the name
    already. *)
Record FybrikApplicationStatus : Type := mkStatus {
  Ready_ : bool;
  statusPhase : RequestPhase;
  AssetStates : gmap string AssetState
}.

(** Modelled from the spec: the status a tick reports for the requested
    assets (spec 4.3, 4.4, 6), which is not under src/. *)
Definition recomputeStatus (reading : DeniedReading) (policy : CompilationPolicy)
    (requested : list string) (observed : gmap string Observed) : FybrikApplicationStatus :=
  let states := (fun a => (a, recomputeAssetState (observed !! a))) <$> requested in
  let p := recomputePhase reading policy (snd <$> states) in
  {| Ready_ := bool_decide (p = RequestReady);
     statusPhase := p;
     AssetStates := list_to_map states |}.

End app.

(** The four lines every call logs first. *)
Definition requestLines (input : policymanager.GetPolicyDecisionsRequest) : list LogEvent :=
  [ Printf "Received OpenAPI request in mockup GetPoliciesDecisions: " [];
    Printf "ProcessingGeography: %s"
      [PString (policymanager.ProcessingLocation (policymanager.Action input))];
    Printf ("Destination: " +:+ policymanager.Destination (policymanager.Action input)) [];
    Printf ("   DataSetID: " +:+ policymanager.ID (policymanager.Resource input)) [] ].

(** ** manager/controllers/app/fybrik_notebook_read_flow_test.go *)

(** Go's [int] on a 64-bit platform: the sum wraps around. *)
Definition int_add (a b : Z) : Z := ((a + b + 2 ^ 63) mod 2 ^ 64 - 2 ^ 63)%Z.

Definition PortFowardingMaxRetryAttempts : Z := 25.

(** [PortForwardingDelay time.Duration = 5] and [time.Second], in
    nanoseconds. *)
Definition PortForwardingDelay : Z := 5.
Definition time_Second : Z := 1000000000.

(** The calls the function makes on the test host, with what they
    answered. *)
Inductive HostCall : Type :=
  | RanPortForward (modulesNamespace svcName : string) (portNum : Z)
      (listenPort : string) (err : option error)
  | StoppedPortForward (err : option error)
  | Slept (d : Z).

Section PortForward.

(** [test.RunPortForward] and [test.StopPortForward] are declared outside
    src/: any host state [Env], any handle type [Cmd] (Go's [*exec.Cmd]) and
    any behaviour will do. *)
Context {Env Cmd : Type}
  (test_RunPortForward : string -> string -> Z -> Env -> (string * Cmd * option error) * Env)
  (test_StopPortForward : Cmd -> Env -> option error * Env).

Record Host : Type := mkHost {
  env : Env;
  calls : list HostCall    (* the calls made so far, oldest first *)
}.

(** The body of the [for] loop, [fuel] iterations of it at most; [None]
    when they do not reach a [return] or the [break]. *)
Fixpoint portForwardLoop (fuel : nat) (modulesNamespace svcName : string) (portNum : Z)
    (i : Z) (h : Host) : option (result string) * Host :=
  match fuel with
  | 0 => (None, h)
  | S fuel' =>
      let '((listenPort, cmd, err), e) :=
        test_RunPortForward modulesNamespace svcName portNum (env h) in
      let h := {| env := e;
                  calls := calls h ++ [RanPortForward modulesNamespace svcName portNum listenPort err] |} in
      match err with
      | None => (Some (Ok listenPort), h)
      | Some _ =>
          if (i >? PortFowardingMaxRetryAttempts)%Z then
            (* break *)
            (Some (Err (errorString "Port Forwarding command failed with error")), h)
          else
            let '(err, e) := test_StopPortForward cmd (env h) in
            let h := {| env := e; calls := calls h ++ [StoppedPortForward err] |} in
            match err with
            | Some err =>
                (Some (Err (errorString ("failed to terminate port-forward " +:+ Error err))), h)
            | None =>
                let h := {| env := env h;
                            calls := calls h ++ [Slept (PortForwardingDelay * time_Second)] |} in
                portForwardLoop fuel' modulesNamespace svcName portNum (int_add i 1) h
            end
      end
  end.

Definition RunPortForwardCommandWithRetryAttemps (fuel : nat)
    (modulesNamespace svcName : string) (portNum : Z) (h : Host)
  : option (result string) * Host :=
  let i := 0%Z in
  portForwardLoop fuel modulesNamespace svcName portNum i h.

End PortForward.

(** One failed attempt that the loop recovers from: the forward fails, its
    process is stopped, and the loop sleeps five seconds. *)
Definition failedAttempt (modulesNamespace svcName : string) (portNum : Z)
    (a : string * error) : list HostCall :=
  [ RanPortForward modulesNamespace svcName portNum (fst a) (Some (snd a));
    StoppedPortForward None;
    Slept (PortForwardingDelay * time_Second) ].

(** The number of forwards tried among the calls [cs], and the time slept
    there, in nanoseconds. *)
Definition attempts (cs : list HostCall) : nat :=
  List.length (List.filter (fun c => match c with RanPortForward _ _ _ _ _ => true | _ => false end) cs).

Definition slept (cs : list HostCall) : Z :=
  foldr (fun c t => match c with Slept d => (d + t)%Z | _ => t end) 0%Z cs.

(** How a run that started with counter [i] ended: some failed attempts the
    loop recovered from, then a last attempt. *)
Inductive Ended (ns svc : string) (port i : Z) : result string -> list HostCall -> Prop :=
  | Forwarded fails p :
      (Z.of_nat (List.length fails) <= 26 - i)%Z ->
      Ended ns svc port i (Ok p)
        (List.concat (failedAttempt ns svc port <$> fails) ++ [RanPortForward ns svc port p None])%list
  | GaveUp fails p e :
      Z.of_nat (List.length fails) = (26 - i)%Z ->
      Ended ns svc port i (Err (errorString "Port Forwarding command failed with error"))
        (List.concat (failedAttempt ns svc port <$> fails) ++ [RanPortForward ns svc port p (Some e)])%list
  | StopFailed fails p e es :
      (Z.of_nat (List.length fails) <= 25 - i)%Z ->
      Ended ns svc port i (Err (errorString ("failed to terminate port-forward " +:+ Error es)))
        (List.concat (failedAttempt ns svc port <$> fails)
         ++ [RanPortForward ns svc port p (Some e); StoppedPortForward (Some es)])%list.

(** Line 300, the service a hostname of the module names:
<<
    svcName := strings.Replace(hostname, "."+modulesNamespace, "", 1)
>> *)
Definition svcName (hostname modulesNamespace : string) : string :=
  strings.Replace hostname ("." +:+ modulesNamespace) "" 1.

(** ** Sample inputs, to run the model on *)

Definition world0 : World (Rng := Replay) := {| logged := []; entropy := ["5f1d3c"] |}.

Definition readTo (destination : string) : policymanager.RequestAction :=
  {| policymanager.ActionType := policymanager.READ;
     policymanager.ProcessingLocation := "theshire";
     policymanager.Destination := destination |}.

Definition writeTo (destination : string) : policymanager.RequestAction :=
  {| policymanager.ActionType := policymanager.WRITE;
     policymanager.ProcessingLocation := "theshire";
     policymanager.Destination := destination |}.

Definition flightEndpoint : app.EndpointSpec :=
  {| app.hostname := "my-notebook-read-flow.fybrik-blueprints";
     app.port := 80; app.protocol := "grpc" |}.

(** Three assets as a tick may find them: two served by healthy modules
    that expose an endpoint, one denied. *)
Definition observed0 : gmap string app.Observed :=
  {[ "catalog/allow-dataset" :=
       app.ObservedModule {| app.healthy := true; app.endpoint := Some flightEndpoint |};
     "catalog/allow-theshire" :=
       app.ObservedModule {| app.healthy := true; app.endpoint := Some flightEndpoint |};
     "catalog/deny-dataset" := app.ObservedDenied "denied by policy" ]}.

(** A request for the two served assets. *)
Definition requested0 : list string := ["catalog/allow-dataset"; "catalog/allow-theshire"].

(** A host on which the forward fails [k] times and then succeeds on port
    ["8080"], and stopping fails when [stopFails]. *)
Definition flakyRun (k : nat) (ns svc : string) (port : Z) (n : nat)
  : (string * unit * option error) * nat :=
  if decide (n < k) then (("", tt, Some (errorString "unable to listen")), S n)
  else (("8080", tt, None), S n).

Definition stopWith (stopFails : bool) (cmd : unit) (n : nat) : option error * nat :=
  (if stopFails then Some (errorString "no such process") else None, n).

Definition host0 : Host (Env := nat) := {| env := 0; calls := [] |}.


(** * Properties *)

(** ** Splitting a dataset ID *)

Section Splitting.

Implicit Types (s ns name : string) (c : ascii).

Lemma prefix_slash c s : String.prefix "/" (String c s) = Ascii.eqb c "/".
Proof.
  change (String.prefix "/" (String c s))
    with (match ascii_dec "/" c with left _ => String.prefix "" s | right _ => false end).
  destruct (ascii_dec "/" c) as [<- | Hne].
  - by destruct s.
  - symmetry. apply Ascii.eqb_neq. congruence.
Qed.

Lemma Index_absent s : occurs "/" s = false → strings.Index s "/" = None.
Proof.
  unfold strings.Index. induction s as [|c s IH]; [done|].
  intros [Hc Hs]%orb_false_iff.
  change (String.index 0 "/" (String c s))
    with (if String.prefix "/" (String c s) then Some 0
          else match String.index 0 "/" s with Some n => Some (S n) | None => None end).
  by rewrite prefix_slash, Hc, (IH Hs).
Qed.

Lemma Index_first ns name :
  occurs "/" ns = false →
  strings.Index (ns +:+ String "/" name) "/" = Some (String.length ns).
Proof.
  unfold strings.Index. induction ns as [|c ns IH]; intros H.
  - simpl. by destruct name.
  - apply orb_false_iff in H as [Hc Hs].
    change (String.index 0 "/" (String c ns +:+ String "/" name))
      with (if String.prefix "/" (String c (ns +:+ String "/" name)) then Some 0
            else match String.index 0 "/" (ns +:+ String "/" name) with
                 | Some n => Some (S n) | None => None end).
    by rewrite prefix_slash, Hc, (IH Hs).
Qed.

Lemma upto_app ns s : strings.upto (String.length ns) (ns +:+ s) = ns.
Proof.
  unfold strings.upto. induction ns as [|c ns IH]; simpl.
  - by destruct s.
  - by rewrite IH.
Qed.

Lemma substring_all s : String.substring 0 (String.length s) s = s.
Proof. induction s as [|c s IH]; simpl; [done | by rewrite IH]. Qed.

Lemma length_app ns s : String.length (ns +:+ s) = String.length ns + String.length s.
Proof. induction ns; simpl; [done | by f_equal]. Qed.

Lemma from_app ns name :
  strings.from (String.length ns + 1) (ns +:+ String "/" name) = name.
Proof.
  unfold strings.from. rewrite length_app. simpl.
  replace (String.length ns + S (String.length name) - (String.length ns + 1))
    with (String.length name) by lia.
  induction ns as [|c ns IH]; simpl; [apply substring_all | exact IH].
Qed.

Lemma SplitN_malformed s : occurs "/" s = false → strings.SplitN s "/" 2 = [s].
Proof.
  intros H. unfold strings.SplitN.
  destruct (Nat.min 2 (String.length s + 1) - 1) as [|k]; simpl; [done|].
  by rewrite (Index_absent s H).
Qed.

Lemma SplitN_wellformed ns name :
  occurs "/" ns = false →
  strings.SplitN (ns +:+ String "/" name) "/" 2 = [ns; name].
Proof.
  intros H. unfold strings.SplitN. rewrite length_app. simpl String.length.
  replace (Nat.min 2 (String.length ns + S (String.length name) + 1) - 1) with 1 by lia.
  simpl. rewrite (Index_first ns name H), upto_app.
  by rewrite from_app.
Qed.

End Splitting.

(** ** The mock policy manager *)

Section MockProperties.
Context {Rng : Type} (random_Hex : nat -> Rng -> (string * option error) * Rng).

Implicit Types (w : World (Rng := Rng)) (ns name creds : string)
  (action : policymanager.RequestAction).

#[local] Abbreviation GPD := (GetPoliciesDecisions random_Hex).

(** The decision ID a call started in [w] hands out: what [random.Hex(20)]
    gives there, its error dropped. *)
#[local] Abbreviation nextID w := (fst (fst (random_Hex 20 (entropy w)))).

Lemma deserialize_denyMap : deserializeToTaxonomyAction denyMap = Ok Deny.
Proof. reflexivity. Qed.

Lemma deserialize_redactMap : deserializeToTaxonomyAction redactMap = Ok (Redact ["SSN"]).
Proof. reflexivity. Qed.

Lemma respond_fst rs w :
  fst (respond random_Hex rs w)
  = Normal (Ok {| policymanager.DecisionID := nextID w; policymanager.Result := rs |}).
Proof.
  unfold respond, mbind, Go_bind, Hex.
  by destruct (random_Hex 20 (entropy w)) as [[id e] g].
Qed.

Lemma addAction_fst scenario m item rs w :
  fst (addAction random_Hex scenario m item rs w)
  = match deserializeToTaxonomyAction m with
    | Ok a => Normal (Ok {| policymanager.DecisionID := nextID w;
                            policymanager.Result := rs ++ [ {| policymanager.Action' := a |} ] |})
    | Err e => Normal (Err e)
    end.
Proof.
  unfold addAction. destruct (deserializeToTaxonomyAction m) as [a|e].
  - apply respond_fst.
  - reflexivity.
Qed.

(** A malformed ID: the four lines are logged, then the call panics. *)
Lemma GPD_malformed input creds w :
  occurs "/" (policymanager.ID (policymanager.Resource input)) = false ->
  exists w', entropy w' = entropy w /\
    GPD input creds w
    = (Panic ("Invalid dataset ID for mock: " +:+ policymanager.ID (policymanager.Resource input)), w').
Proof.
  intros H. unfold GetPoliciesDecisions, mbind, Go_bind, log_Printf.
  rewrite (SplitN_malformed _ H). eexists. split; [|reflexivity]. reflexivity.
Qed.

(** A well-formed ID: the four lines are logged, then the [switch] runs on
    the text after the first ['/']. *)
Lemma GPD_wellformed ns name action creds w :
  occurs "/" ns = false ->
  exists w', entropy w' = entropy w /\
    GPD (requestFor (ns +:+ String "/" name) action) creds w
    = (if name =? "allow-dataset" then respond random_Hex []
       else if name =? "deny-dataset" then
         addAction random_Hex "deny-dataset :" denyMap policymanager.zeroItem []
       else if name =? "allow-theshire" then
         if negb (policymanager.Destination action =? "theshire")
         then addAction random_Hex "allow-theshire:" denyMap policymanager.zeroItem []
         else respond random_Hex []
       else if name =? "deny-write" then
         if bool_decide (policymanager.ActionType action = policymanager.WRITE)
         then addAction random_Hex "deny-write:" denyMap policymanager.zeroItem []
         else respond random_Hex []
       else addAction random_Hex "default:" redactMap policymanager.zeroItem [])%string w'.
Proof.
  intros H. unfold GetPoliciesDecisions, mbind, Go_bind, log_Printf.
  cbn [policymanager.ID policymanager.Resource requestFor policymanager.Action].
  rewrite (SplitN_wellformed _ _ H). eexists. split; [|reflexivity]. reflexivity.
Qed.

(** The actions decided for a well-formed ID, read off the request alone. *)
Lemma GPD_decided_wellformed ns name action creds w :
  occurs "/" ns = false ->
  decided (fst (GPD (requestFor (ns +:+ String "/" name) action) creds w))
  = Normal (Ok
      (if name =? "allow-dataset" then []
       else if name =? "deny-dataset" then [Deny]
       else if name =? "allow-theshire" then
         if negb (policymanager.Destination action =? "theshire") then [Deny] else []
       else if name =? "deny-write" then
         if bool_decide (policymanager.ActionType action = policymanager.WRITE) then [Deny] else []
       else [Redact ["SSN"]])%string).
Proof.
  intros H. destruct (GPD_wellformed ns name action creds w H) as (w' & _ & ->).
  repeat case_match; rewrite ?respond_fst, ?addAction_fst; reflexivity.
Qed.

Lemma occurs_app c a b : occurs c (a +:+ String c b) = true.
Proof.
  induction a as [|x a IH]; simpl.
  - by rewrite Ascii.eqb_refl.
  - by rewrite IH, orb_true_r.
Qed.

(** An ID in which ['/'] occurs is well formed: it cuts at the first one. *)
Lemma occurs_split c s :
  occurs c s = true -> exists a b, s = a +:+ String c b /\ occurs c a = false.
Proof.
  induction s as [|x s IH]; simpl; [done|].
  destruct (Ascii.eqb x c) eqn:E; simpl.
  - apply Ascii.eqb_eq in E as ->. intros _. by exists "", s.
  - intros (a & b & -> & Ha)%IH. exists (String x a), b. simpl. by rewrite E, Ha.
Qed.

Lemma nested_not_special a b : (a +:+ String "/" b) ∉ specialAssets.
Proof.
  intros Hin. pose proof (occurs_app "/" a b) as Hocc.
  unfold specialAssets in Hin.
  repeat (apply elem_of_cons in Hin as [Heq | Hin]; [rewrite Heq in Hocc; discriminate Hocc|]).
  by apply elem_of_nil in Hin.
Qed.

Lemma not_special name :
  name ∉ specialAssets ->
  (name =? "allow-dataset")%string = false /\ (name =? "deny-dataset")%string = false /\
  (name =? "allow-theshire")%string = false /\ (name =? "deny-write")%string = false.
Proof.
  unfold specialAssets. intros H.
  repeat split; apply String.eqb_neq; intros ->; apply H; set_solver.
Qed.

(** The log is only ever appended to. *)
Lemma respond_log rs w :
  exists events, logged (snd (respond random_Hex rs w)) = (logged w ++ events)%list.
Proof.
  unfold respond, mbind, mret, Go_bind, Go_ret, log_Print, Hex.
  destruct (random_Hex 20 (entropy w)) as [[id e] g]. cbn. by eexists.
Qed.

Lemma addAction_log scenario m item rs w :
  exists events,
    logged (snd (addAction random_Hex scenario m item rs w)) = (logged w ++ events)%list.
Proof.
  unfold addAction. destruct (deserializeToTaxonomyAction m) as [a|e].
  - apply respond_log.
  - cbn. by eexists.
Qed.

Lemma GPD_log_grows input creds w :
  exists events, logged (snd (GPD input creds w)) = (logged w ++ events)%list.
Proof.
  unfold GetPoliciesDecisions, mbind, Go_bind, log_Printf. cbn [logged entropy].
  match goal with |- context [mkWorld ?l ?g] => set (w4 := mkWorld l g) end.
  assert (Hgrow : forall c : Go (result policymanager.GetPolicyDecisionsResponse),
            (exists events, logged (snd (c w4)) = (logged w4 ++ events)%list) ->
            exists events, logged (snd (c w4)) = (logged w ++ events)%list).
  { intros c [events ->]. subst w4. cbn [logged]. rewrite <- !app_assoc. by eexists. }
  destruct (strings.SplitN _ "/" 2) as [|? [|assetID [|? ?]]];
    try (apply (Hgrow (panic _)); exists []; cbn; by rewrite app_nil_r).
  apply Hgrow.
  repeat match goal with |- context [if ?b then _ else _] => destruct b end;
    first [apply respond_log | apply addAction_log].
Qed.

(** C1, as the code has it: a dataset ID with no ['/'] in it makes
    [GetPoliciesDecisions] panic with the message
    ["Invalid dataset ID for mock: "] followed by the ID, after it has logged
    the four request lines and nothing else, the entropy source untouched;
    nothing, and so no error, is returned to the caller. *)
Theorem malformed_id_panics input creds w :
  occurs "/" (policymanager.ID (policymanager.Resource input)) = false ->
  GPD input creds w
    = (Panic ("Invalid dataset ID for mock: " +:+ policymanager.ID (policymanager.Resource input)),
       {| logged := (logged w ++ requestLines input)%list; entropy := entropy w |})
  /\ forall r, fst (GPD input creds w) <> Normal r.
Proof.
  intros H.
  assert (E : GPD input creds w
    = (Panic ("Invalid dataset ID for mock: " +:+ policymanager.ID (policymanager.Resource input)),
       {| logged := (logged w ++ requestLines input)%list; entropy := entropy w |})).
  { unfold GetPoliciesDecisions, mbind, Go_bind, log_Printf, panic.
    rewrite (SplitN_malformed _ H). cbn [logged entropy]. unfold requestLines.
    by rewrite <- !app_assoc. }
  split; [exact E|]. intros r. by rewrite E.
Qed.

(** C2: two calls with the same request and credentials end the same way
    and, when they return a decision, with equal lists of enforcement
    actions, whatever the log holds and the entropy source gives at each
    call. *)
Theorem decision_is_a_function_of_the_request input creds w1 w2 :
  decided (fst (GPD input creds w1)) = decided (fst (GPD input creds w2)).
Proof.
  destruct input as [action [id]].
  destruct (occurs "/" id) eqn:Hid.
  - apply occurs_split in Hid as (ns & name & -> & Hns).
    change (decided (fst (GPD (requestFor (ns +:+ String "/" name) action) creds w1))
            = decided (fst (GPD (requestFor (ns +:+ String "/" name) action) creds w2))).
    by rewrite !GPD_decided_wellformed.
  - destruct (GPD_malformed (requestFor id action) creds w1 Hid) as (? & _ & E1).
    destruct (GPD_malformed (requestFor id action) creds w2 Hid) as (? & _ & E2).
    unfold requestFor in E1, E2. by rewrite E1, E2.
Qed.

(** C3: for a well-formed dataset ID whose asset name is [deny-dataset] the
    call returns a response, with no error, whose result is the single action
    Deny, whatever the action type, the destination and the processing
    location. *)
Theorem deny_dataset_is_denied ns action creds w :
  occurs "/" ns = false ->
  fst (GPD (requestFor (ns +:+ "/deny-dataset") action) creds w)
  = Normal (Ok {| policymanager.DecisionID := nextID w;
                  policymanager.Result := [ {| policymanager.Action' := Deny |} ] |}).
Proof.
  intros H. destruct (GPD_wellformed ns "deny-dataset" action creds w H) as (w' & Hw & ->).
  cbn [String.eqb Ascii.eqb Bool.eqb]. by rewrite addAction_fst, Hw.
Qed.

(** C4: for a well-formed dataset ID whose asset name is [deny-write] the
    call returns a response; a Deny is among its actions exactly when the
    action type is Write, and for a Read the result is empty. *)
Theorem deny_write_denies_writes_only ns action creds w :
  occurs "/" ns = false ->
  exists resp,
    fst (GPD (requestFor (ns +:+ "/deny-write") action) creds w) = Normal (Ok resp)
    /\ ((exists a, a ∈ actions resp /\ isDeny a = true)
        <-> policymanager.ActionType action = policymanager.WRITE)
    /\ (policymanager.ActionType action = policymanager.READ -> policymanager.Result resp = []).
Proof.
  intros H. destruct (GPD_wellformed ns "deny-write" action creds w H) as (w' & Hw & ->).
  cbn [String.eqb Ascii.eqb Bool.eqb]. case_bool_decide as Ha.
  - rewrite addAction_fst. eexists. split; [reflexivity|]. split.
    + split; [done|]. intros _. exists Deny. split; [|done]. cbn. set_solver.
    + rewrite Ha. discriminate.
  - rewrite respond_fst. eexists. split; [reflexivity|]. split; [|done].
    split; [|done]. intros (a & Hin & _). cbn in Hin. by apply elem_of_nil in Hin.
Qed.

(** C5: for a well-formed dataset ID whose asset name is none of
    [allow-dataset], [deny-dataset], [allow-theshire], [deny-write] the call
    returns a response whose result is the single action Redact of the
    columns [["SSN"]]. *)
Theorem unlisted_asset_is_redacted ns name action creds w :
  occurs "/" ns = false ->
  name ∉ specialAssets ->
  fst (GPD (requestFor (ns +:+ String "/" name) action) creds w)
  = Normal (Ok {| policymanager.DecisionID := nextID w;
                  policymanager.Result := [ {| policymanager.Action' := Redact ["SSN"] |} ] |}).
Proof.
  intros H (E1 & E2 & E3 & E4)%not_special.
  destruct (GPD_wellformed ns name action creds w H) as (w' & Hw & ->).
  by rewrite E1, E2, E3, E4, addAction_fst, Hw.
Qed.

(** C6: for a well-formed dataset ID whose asset name is [allow-dataset] the
    call returns a response, with no error, whose result is empty and whose
    decision ID is the one [random.Hex(20)] gave. *)
Theorem allow_dataset_is_allowed ns action creds w :
  occurs "/" ns = false ->
  fst (GPD (requestFor (ns +:+ "/allow-dataset") action) creds w)
  = Normal (Ok {| policymanager.DecisionID := nextID w; policymanager.Result := [] |}).
Proof.
  intros H. destruct (GPD_wellformed ns "allow-dataset" action creds w H) as (w' & Hw & ->).
  cbn [String.eqb Ascii.eqb Bool.eqb]. by rewrite respond_fst, Hw.
Qed.

(** C9: for a well-formed dataset ID whose asset name is [allow-theshire]
    the call returns a response; a Deny is among its actions exactly when
    the destination is not ["theshire"], and for that destination the result
    is empty. *)
Theorem allow_theshire_denies_other_destinations ns action creds w :
  occurs "/" ns = false ->
  exists resp,
    fst (GPD (requestFor (ns +:+ "/allow-theshire") action) creds w) = Normal (Ok resp)
    /\ ((exists a, a ∈ actions resp /\ isDeny a = true)
        <-> policymanager.Destination action <> "theshire")
    /\ (policymanager.Destination action = "theshire" -> policymanager.Result resp = []).
Proof.
  intros H. destruct (GPD_wellformed ns "allow-theshire" action creds w H) as (w' & Hw & ->).
  cbn [String.eqb Ascii.eqb Bool.eqb].
  destruct (policymanager.Destination action =? "theshire")%string eqn:Hd; cbn [negb].
  - apply String.eqb_eq in Hd. rewrite respond_fst. eexists. split; [reflexivity|].
    split; [|done]. split; [|done]. intros (a & Hin & _). cbn in Hin. by apply elem_of_nil in Hin.
  - apply String.eqb_neq in Hd. rewrite addAction_fst. eexists. split; [reflexivity|].
    split; [|done]. split; [done|]. intros _. exists Deny. split; [|done]. cbn. set_solver.
Qed.

(** C10: only the text after the first ['/'] classifies the asset. Two
    well-formed IDs with the same text after their first ['/'] get equal
    action lists in the same action context; an ID whose text after the first
    ['/'] has a ['/'] of its own is accepted and gets the default Redact of
    [["SSN"]], and so does ["catalog/deny-dataset/extra"]. *)
Theorem classified_by_text_after_first_slash ns1 ns2 name a b action creds w1 w2 :
  occurs "/" ns1 = false ->
  occurs "/" ns2 = false ->
  decided (fst (GPD (requestFor (ns1 +:+ String "/" name) action) creds w1))
  = decided (fst (GPD (requestFor (ns2 +:+ String "/" name) action) creds w2))
  /\ decided (fst (GPD (requestFor (ns1 +:+ String "/" (a +:+ String "/" b)) action) creds w1))
     = Normal (Ok [Redact ["SSN"]])
  /\ decided (fst (GPD (requestFor "catalog/deny-dataset/extra" action) creds w1))
     = Normal (Ok [Redact ["SSN"]]).
Proof.
  intros H1 H2.
  assert (Hnested : forall ns x y w, occurs "/" ns = false ->
            decided (fst (GPD (requestFor (ns +:+ String "/" (x +:+ String "/" y)) action) creds w))
            = Normal (Ok [Redact ["SSN"]])).
  { intros ns x y w H. rewrite (GPD_decided_wellformed _ _ _ _ _ H).
    by destruct (not_special _ (nested_not_special x y)) as (-> & -> & -> & ->). }
  split; [|split].
  - by rewrite !GPD_decided_wellformed.
  - by apply Hnested.
  - by apply (Hnested "catalog" "deny-dataset" "extra").
Qed.

End MockProperties.

(** C1, as the claim has it, fails for the ID ["allow-dataset"], which has no
    ['/']: the call panics and returns no error. *)
Lemma malformed_id_returns_no_error :
  occurs "/" "allow-dataset" = false
  /\ fst (GetPoliciesDecisions replay_Hex (requestFor "allow-dataset" (readTo "theshire")) "" world0)
     = Panic "Invalid dataset ID for mock: allow-dataset"
  /\ ~ exists e : error,
         fst (GetPoliciesDecisions replay_Hex (requestFor "allow-dataset" (readTo "theshire")) "" world0)
         = Normal (Err e).
Proof.
  split; [reflexivity|]. split; [reflexivity|].
  intros [e He]. vm_compute in He. discriminate He.
Qed.

Lemma malformed_id_panics_witness :
  occurs "/" "allow-dataset" = false
  /\ (GetPoliciesDecisions replay_Hex (requestFor "allow-dataset" (readTo "theshire")) "" world0
        = (Panic "Invalid dataset ID for mock: allow-dataset",
           {| logged := (logged world0
                ++ requestLines (requestFor "allow-dataset" (readTo "theshire")))%list;
              entropy := entropy world0 |})
      /\ forall r,
           fst (GetPoliciesDecisions replay_Hex (requestFor "allow-dataset" (readTo "theshire")) "" world0)
           <> Normal r).
Proof.
  split; [reflexivity|].
  apply (malformed_id_panics replay_Hex (requestFor "allow-dataset" (readTo "theshire")) "" world0).
  reflexivity.
Defined.

Lemma deny_dataset_is_denied_witness :
  occurs "/" "catalog" = false
  /\ fst (GetPoliciesDecisions replay_Hex (requestFor "catalog/deny-dataset" (readTo "theshire")) "" world0)
     = Normal (Ok {| policymanager.DecisionID := "5f1d3c";
                     policymanager.Result := [ {| policymanager.Action' := Deny |} ] |}).
Proof.
  split; [reflexivity|].
  apply (deny_dataset_is_denied replay_Hex "catalog" (readTo "theshire") "" world0).
  reflexivity.
Defined.

Lemma deny_write_denies_writes_only_witness :
  occurs "/" "catalog" = false
  /\ exists resp,
       fst (GetPoliciesDecisions replay_Hex (requestFor "catalog/deny-write" (writeTo "theshire")) "" world0)
       = Normal (Ok resp)
       /\ ((exists a, a ∈ actions resp /\ isDeny a = true)
           <-> policymanager.ActionType (writeTo "theshire") = policymanager.WRITE)
       /\ (policymanager.ActionType (writeTo "theshire") = policymanager.READ ->
           policymanager.Result resp = []).
Proof.
  split; [reflexivity|].
  apply (deny_write_denies_writes_only replay_Hex "catalog" (writeTo "theshire") "" world0).
  reflexivity.
Defined.

Lemma unlisted_asset_is_redacted_witness :
  occurs "/" "catalog" = false
  /\ ("my-dataset" ∉ specialAssets)
  /\ fst (GetPoliciesDecisions replay_Hex (requestFor "catalog/my-dataset" (readTo "theshire")) "" world0)
     = Normal (Ok {| policymanager.DecisionID := "5f1d3c";
                     policymanager.Result := [ {| policymanager.Action' := Redact ["SSN"] |} ] |}).
Proof.
  assert (Hnot : "my-dataset" ∉ specialAssets).
  { unfold specialAssets. intros Hin.
    repeat (apply elem_of_cons in Hin as [Heq | Hin]; [discriminate Heq|]).
    by apply elem_of_nil in Hin. }
  split; [reflexivity|]. split; [exact Hnot|].
  apply (unlisted_asset_is_redacted replay_Hex "catalog" "my-dataset" (readTo "theshire") "" world0);
    [reflexivity | exact Hnot].
Defined.

Lemma allow_dataset_is_allowed_witness :
  occurs "/" "catalog" = false
  /\ fst (GetPoliciesDecisions replay_Hex (requestFor "catalog/allow-dataset" (readTo "theshire")) "" world0)
     = Normal (Ok {| policymanager.DecisionID := "5f1d3c"; policymanager.Result := [] |}).
Proof.
  split; [reflexivity|].
  apply (allow_dataset_is_allowed replay_Hex "catalog" (readTo "theshire") "" world0).
  reflexivity.
Defined.

Lemma allow_theshire_denies_other_destinations_witness :
  occurs "/" "catalog" = false
  /\ exists resp,
       fst (GetPoliciesDecisions replay_Hex (requestFor "catalog/allow-theshire" (readTo "mordor")) "" world0)
       = Normal (Ok resp)
       /\ ((exists a, a ∈ actions resp /\ isDeny a = true)
           <-> policymanager.Destination (readTo "mordor") <> "theshire")
       /\ (policymanager.Destination (readTo "mordor") = "theshire" ->
           policymanager.Result resp = []).
Proof.
  split; [reflexivity|].
  apply (allow_theshire_denies_other_destinations replay_Hex "catalog" (readTo "mordor") "" world0).
  reflexivity.
Defined.

Lemma classified_by_text_after_first_slash_witness :
  occurs "/" "catalog" = false
  /\ occurs "/" "warehouse" = false
  /\ decided (fst (GetPoliciesDecisions replay_Hex
                     (requestFor "catalog/deny-dataset" (readTo "theshire")) "" world0))
     = decided (fst (GetPoliciesDecisions replay_Hex
                       (requestFor "warehouse/deny-dataset" (readTo "theshire")) "" world0))
  /\ decided (fst (GetPoliciesDecisions replay_Hex
                     (requestFor "catalog/allow-dataset/v2" (readTo "theshire")) "" world0))
     = Normal (Ok [Redact ["SSN"]])
  /\ decided (fst (GetPoliciesDecisions replay_Hex
                     (requestFor "catalog/deny-dataset/extra" (readTo "theshire")) "" world0))
     = Normal (Ok [Redact ["SSN"]]).
Proof.
  split; [reflexivity|]. split; [reflexivity|].
  apply (classified_by_text_after_first_slash replay_Hex "catalog" "warehouse" "deny-dataset"
           "allow-dataset" "v2" (readTo "theshire") "" world0 world0); reflexivity.
Defined.

(** ** The readiness report *)

Section Readiness.
Import app.

Implicit Types (requested : list string) (observed : gmap string Observed)
  (reading : DeniedReading) (policy : CompilationPolicy) (st : AssetState).

Lemma lookup_states requested observed a :
  a ∈ requested ->
  (list_to_map ((fun a => (a, recomputeAssetState (observed !! a))) <$> requested)
     : gmap string AssetState) !! a
  = Some (recomputeAssetState (observed !! a)).
Proof.
  induction requested as [|b l IH]; intros Hin.
  - by apply elem_of_nil in Hin.
  - cbn [fmap list_fmap list_to_map foldr]. simpl.
    destruct (decide (b = a)) as [-> | Hne].
    + apply lookup_insert_eq.
    + rewrite lookup_insert_ne by done. apply IH.
      apply elem_of_cons in Hin as [-> | Hin]; done.
Qed.

(** A Ready request has settled assets only, in either reading and under
    either policy. *)
Lemma ready_phase_all reading policy (states : list AssetState) :
  recomputePhase reading policy states = RequestReady ->
  forallb (settled reading) states = true.
Proof.
  unfold recomputePhase. repeat case_match; congruence.
Qed.

(** A settled asset is denied or Ready, in either reading. *)
Lemma settled_denied_or_ready reading st :
  settled reading st = true -> phase st = Denied \/ phase st = Ready.
Proof.
  unfold settled, isPhase. destruct reading.
  - intros [H|H]%orb_true_iff; apply bool_decide_eq_true in H; auto.
  - rewrite orb_false_r. intros H%bool_decide_eq_true. auto.
Qed.

(** What the tick gives an asset it finds Ready: one condition of type
    Ready, true, no other of that type, and the endpoint of its module. *)
Lemma ready_state o :
  phase (recomputeAssetState o) = Ready ->
  (exists c, c ∈ Conditions (recomputeAssetState o) /\ Type_ c = ReadyCondition)
  /\ (forall c, c ∈ Conditions (recomputeAssetState o) ->
                Type_ c = ReadyCondition -> Status c = ConditionTrue)
  /\ is_Some (Endpoint (recomputeAssetState o)).
Proof.
  destruct o as [[reason|reason|[h e]]|]; cbn; try discriminate.
  destruct (h && bool_decide (is_Some e)) eqn:E; cbn; [|discriminate].
  intros _. apply andb_true_iff in E as [_ He]. apply bool_decide_eq_true in He.
  split; [|split; [|exact He]].
  - eexists. split; [apply list_elem_of_here | reflexivity].
  - intros c Hin Hty. unfold conditions in Hin.
    repeat (apply elem_of_cons in Hin as [-> | Hin]; [first [reflexivity | discriminate Hty]|]).
    by apply elem_of_nil in Hin.
Qed.

(** C7: when the status a tick reports says Ready, every requested asset has
    a state, and the state of every requested asset that is not denied has a
    condition of type Ready, every condition of that type in it is true, and
    it has an endpoint. This holds whichever way a denied asset counts in
    the aggregate phase, and under either compilation policy. *)
Theorem ready_request_has_ready_assets reading policy requested observed a :
  Ready_ (recomputeStatus reading policy requested observed) = true ->
  a ∈ requested ->
  exists st,
    AssetStates (recomputeStatus reading policy requested observed) !! a = Some st
    /\ (phase st <> Denied ->
        (exists c, c ∈ Conditions st /\ Type_ c = ReadyCondition)
        /\ (forall c, c ∈ Conditions st -> Type_ c = ReadyCondition -> Status c = ConditionTrue)
        /\ is_Some (Endpoint st)).
Proof.
  intros Hready Hin. exists (recomputeAssetState (observed !! a)).
  cbn [recomputeStatus AssetStates Ready_] in *.
  rewrite (lookup_states _ _ _ Hin). split; [done|]. intros Hnd.
  apply bool_decide_eq_true, ready_phase_all in Hready.
  rewrite forallb_forall in Hready.
  assert (Hmem : In (recomputeAssetState (observed !! a))
                   (snd <$> ((fun a => (a, recomputeAssetState (observed !! a))) <$> requested))).
  { apply list_elem_of_In, list_elem_of_fmap.
    exists (a, recomputeAssetState (observed !! a)). split; [done|].
    apply list_elem_of_fmap. by exists a. }
  destruct (settled_denied_or_ready _ _ (Hready _ Hmem)) as [Hd | Hr]; [done|].
  by apply ready_state.
Qed.

End Readiness.

Lemma ready_request_has_ready_assets_witness :
  app.Ready_ (app.recomputeStatus app.DeniedMixed app.Partial requested0 observed0) = true
  /\ "catalog/allow-dataset" ∈ requested0
  /\ exists st,
       app.AssetStates (app.recomputeStatus app.DeniedMixed app.Partial requested0 observed0)
         !! "catalog/allow-dataset" = Some st
       /\ (app.phase st <> app.Denied ->
           (exists c, c ∈ app.Conditions st /\ app.Type_ c = app.ReadyCondition)
           /\ (forall c, c ∈ app.Conditions st ->
                         app.Type_ c = app.ReadyCondition -> app.Status c = app.ConditionTrue)
           /\ is_Some (app.Endpoint st)).
Proof.
  split; [reflexivity|]. split; [apply list_elem_of_here|].
  apply (ready_request_has_ready_assets app.DeniedMixed app.Partial requested0 observed0
           "catalog/allow-dataset");
    [reflexivity | apply list_elem_of_here].
Defined.

(** ** The mock policy manager: what else a caller can rely on *)

Section MockBehaviour.
Context {Rng : Type} (random_Hex : nat -> Rng -> (string * option error) * Rng).

Implicit Types (w : World (Rng := Rng)) (ns name creds : string)
  (action : policymanager.RequestAction).

#[local] Abbreviation GPD' := (GetPoliciesDecisions random_Hex).

Lemma respond_run rs w :
  respond random_Hex rs w
  = (let resp := {| policymanager.DecisionID := fst (fst (random_Hex 20 (entropy w)));
                    policymanager.Result := rs |} in
     (Normal (Ok resp),
      {| logged := (logged w ++
           [Print [PString "Marshalled policy manager response in mockup GetPoliciesDecisions:";
                   PResponse (json.Encoded resp)]])%list;
         entropy := snd (random_Hex 20 (entropy w)) |})).
Proof.
  unfold respond, mbind, mret, Go_bind, Go_ret, log_Print, Hex.
  by destruct (random_Hex 20 (entropy w)) as [[id e] g].
Qed.

Lemma GPD_run_wellformed ns name action creds w :
  occurs "/" ns = false ->
  exists rs,
    GPD' (requestFor (ns +:+ String "/" name) action) creds w
    = respond random_Hex rs
        {| logged := (logged w ++ requestLines (requestFor (ns +:+ String "/" name) action))%list;
           entropy := entropy w |}.
Proof.
  intros H. unfold GetPoliciesDecisions, mbind, Go_bind, log_Printf, addAction.
  cbn [policymanager.ID policymanager.Resource requestFor policymanager.Action logged entropy].
  rewrite (SplitN_wellformed _ _ H), deserialize_denyMap, deserialize_redactMap.
  unfold requestLines. cbn [policymanager.ID policymanager.Resource requestFor policymanager.Action].
  rewrite <- !app_assoc. cbn [app].
  repeat match goal with |- context [if ?b then _ else _] => destruct b end; by eexists.
Qed.

(** X1: a call with a well-formed ID logs the four request lines and then
    one more, which holds the very response it returns, decision ID
    included; it takes one value from [random.Hex(20)], the decision ID, and
    nothing else from the entropy source. *)
Theorem returned_decision_is_logged ns name action creds w :
  occurs "/" ns = false ->
  exists resp,
    GPD' (requestFor (ns +:+ String "/" name) action) creds w
    = (Normal (Ok resp),
       {| logged := (logged w ++ requestLines (requestFor (ns +:+ String "/" name) action) ++
            [Print [PString "Marshalled policy manager response in mockup GetPoliciesDecisions:";
                    PResponse (json.Encoded resp)]])%list;
          entropy := snd (random_Hex 20 (entropy w)) |})
    /\ policymanager.DecisionID resp = fst (fst (random_Hex 20 (entropy w))).
Proof.
  intros H. destruct (GPD_run_wellformed ns name action creds w H) as [rs ->].
  rewrite respond_run. cbv zeta. cbn [logged entropy]. rewrite <- app_assoc.
  by eexists.
Qed.

(** X2: a call with an ID that has no ['/'] logs the four request lines,
    the ID among them, before it panics; it logs nothing else and takes
    nothing from the entropy source. *)
Theorem panic_leaves_entropy_untouched input creds w :
  occurs "/" (policymanager.ID (policymanager.Resource input)) = false ->
  snd (GPD' input creds w)
  = {| logged := (logged w ++ requestLines input)%list; entropy := entropy w |}.
Proof.
  intros H. unfold GetPoliciesDecisions, mbind, Go_bind, log_Printf.
  rewrite (SplitN_malformed _ H). cbn. unfold requestLines.
  by rewrite <- !app_assoc.
Qed.

(** X3: the error result is never used. A call panics exactly when its
    dataset ID has no ['/'] and returns a response exactly when it has one;
    it returns no error in either case. *)
Theorem never_returns_an_error input creds w :
  match fst (GPD' input creds w) with
  | Panic _ => occurs "/" (policymanager.ID (policymanager.Resource input)) = false
  | Normal (Ok _) => occurs "/" (policymanager.ID (policymanager.Resource input)) = true
  | Normal (Err _) => False
  end.
Proof.
  destruct input as [action [id]]. cbn [policymanager.ID policymanager.Resource].
  destruct (occurs "/" id) eqn:Hid.
  - apply occurs_split in Hid as (ns & name & -> & Hns).
    destruct (GPD_run_wellformed ns name action creds w Hns) as [rs E].
    unfold requestFor in E. by rewrite E, respond_run.
  - destruct (GPD_malformed random_Hex (requestFor id action) creds w Hid) as (w' & _ & E).
    unfold requestFor in E. by rewrite E.
Qed.

(** X4: a returned decision is empty, or the single action Deny, or the
    single action Redact of [["SSN"]]: never two actions, never a Deny with a
    Redact, never a redaction of other columns. *)
Theorem decisions_have_three_shapes input creds w resp :
  fst (GPD' input creds w) = Normal (Ok resp) ->
  actions resp = [] \/ actions resp = [Deny] \/ actions resp = [Redact ["SSN"]].
Proof.
  destruct input as [action [id]]. intros E.
  destruct (occurs "/" id) eqn:Hid.
  - apply occurs_split in Hid as (ns & name & -> & Hns).
    pose proof (GPD_decided_wellformed random_Hex ns name action creds w Hns) as D.
    unfold requestFor in D. rewrite E in D. cbn [decided] in D.
    injection D as ->. repeat case_match; auto.
  - destruct (GPD_malformed random_Hex (requestFor id action) creds w Hid) as (w' & _ & E').
    unfold requestFor in E'. rewrite E' in E. discriminate E.
Qed.

(** X5: for a well-formed ID, Deny is decided exactly for [deny-dataset],
    for [allow-theshire] with a destination other than ["theshire"], and for
    [deny-write] with the action type Write; Redact of [["SSN"]] is decided
    exactly for the asset names that are not special. *)
Theorem deny_and_redact_exactly_when ns name action creds w :
  occurs "/" ns = false ->
  exists resp,
    fst (GPD' (requestFor (ns +:+ String "/" name) action) creds w) = Normal (Ok resp)
    /\ (Deny ∈ actions resp <->
        name = "deny-dataset"
        \/ (name = "allow-theshire" /\ policymanager.Destination action <> "theshire")
        \/ (name = "deny-write" /\ policymanager.ActionType action = policymanager.WRITE))
    /\ (Redact ["SSN"] ∈ actions resp <-> name ∉ specialAssets).
Proof.
  intros H.
  pose proof (GPD_decided_wellformed random_Hex ns name action creds w H) as D.
  pose proof (never_returns_an_error (requestFor (ns +:+ String "/" name) action) creds w) as N.
  destruct (fst (GPD' (requestFor (ns +:+ String "/" name) action) creds w)) as [[resp|e]|v];
    [|done|cbn in N; by rewrite occurs_app in N].
  exists resp. split; [done|]. cbn [decided] in D. injection D as ->.
  assert (HDR : Deny <> Redact ["SSN"]) by discriminate.
  unfold specialAssets.
  destruct (name =? "allow-dataset") eqn:E1; [apply String.eqb_eq in E1 as ->|apply String.eqb_neq in E1].
  { split; (split; [intros Hin; by apply elem_of_nil in Hin|]).
    - intros [?|[[? _]|[? _]]]; discriminate.
    - intros Hn. exfalso. apply Hn. set_solver. }
  destruct (name =? "deny-dataset") eqn:E2; [apply String.eqb_eq in E2 as ->|apply String.eqb_neq in E2].
  { split; split.
    - auto.
    - intros _. set_solver.
    - intros Hin. apply list_elem_of_singleton in Hin. done.
    - intros Hn. exfalso. apply Hn. set_solver. }
  destruct (name =? "allow-theshire") eqn:E3; [apply String.eqb_eq in E3 as ->|apply String.eqb_neq in E3].
  { destruct (policymanager.Destination action =? "theshire") eqn:Ed;
      [apply String.eqb_eq in Ed|apply String.eqb_neq in Ed]; cbn [negb]; split; split.
    - intros Hin; by apply elem_of_nil in Hin.
    - intros [?|[[_ ?]|[? _]]]; done.
    - intros Hin; by apply elem_of_nil in Hin.
    - intros Hn. exfalso. apply Hn. set_solver.
    - auto.
    - intros _. set_solver.
    - intros Hin. apply list_elem_of_singleton in Hin. done.
    - intros Hn. exfalso. apply Hn. set_solver. }
  destruct (name =? "deny-write") eqn:E4; [apply String.eqb_eq in E4 as ->|apply String.eqb_neq in E4].
  { case_bool_decide as Ht; split; split.
    - auto.
    - intros _. set_solver.
    - intros Hin. apply list_elem_of_singleton in Hin. done.
    - intros Hn. exfalso. apply Hn. set_solver.
    - intros Hin; by apply elem_of_nil in Hin.
    - intros [?|[[? _]|[_ ?]]]; done.
    - intros Hin; by apply elem_of_nil in Hin.
    - intros Hn. exfalso. apply Hn. set_solver. }
  split; split.
  - intros Hin. apply list_elem_of_singleton in Hin. done.
  - intros [?|[[? _]|[? _]]]; done.
  - intros _ Hin. repeat (apply elem_of_cons in Hin as [?|Hin]; [done|]).
    by apply elem_of_nil in Hin.
  - intros _. apply list_elem_of_here.
Qed.


(** X6: the processing location and the credentials have no part in the
    decision: two calls that agree on dataset ID, action type and destination
    end the same way, with equal actions. *)
Theorem location_and_credentials_are_ignored id ty destination loc1 loc2 creds1 creds2 w1 w2 :
  decided (fst (GPD' (requestFor id {| policymanager.ActionType := ty;
                                       policymanager.ProcessingLocation := loc1;
                                       policymanager.Destination := destination |}) creds1 w1))
  = decided (fst (GPD' (requestFor id {| policymanager.ActionType := ty;
                                         policymanager.ProcessingLocation := loc2;
                                         policymanager.Destination := destination |}) creds2 w2)).
Proof.
  destruct (occurs "/" id) eqn:Hid.
  - apply occurs_split in Hid as (ns & name & -> & Hns).
    by rewrite !GPD_decided_wellformed.
  - destruct (GPD_malformed random_Hex (requestFor id {| policymanager.ActionType := ty;
                                       policymanager.ProcessingLocation := loc1;
                                       policymanager.Destination := destination |}) creds1 w1 Hid) as (? & _ & ->).
    destruct (GPD_malformed random_Hex (requestFor id {| policymanager.ActionType := ty;
                                       policymanager.ProcessingLocation := loc2;
                                       policymanager.Destination := destination |}) creds2 w2 Hid) as (? & _ & ->).
    reflexivity.
Qed.

End MockBehaviour.

Lemma returned_decision_is_logged_witness :
  occurs "/" "catalog" = false
  /\ exists resp,
       GetPoliciesDecisions replay_Hex (requestFor "catalog/deny-dataset" (readTo "theshire")) "" world0
       = (Normal (Ok resp),
          {| logged := (logged world0
               ++ requestLines (requestFor "catalog/deny-dataset" (readTo "theshire"))
               ++ [Print [PString "Marshalled policy manager response in mockup GetPoliciesDecisions:";
                          PResponse (json.Encoded resp)]])%list;
             entropy := snd (replay_Hex 20 (entropy world0)) |})
       /\ policymanager.DecisionID resp = fst (fst (replay_Hex 20 (entropy world0))).
Proof.
  split; [reflexivity|].
  apply (returned_decision_is_logged replay_Hex "catalog" "deny-dataset" (readTo "theshire") "" world0).
  reflexivity.
Defined.

Lemma panic_leaves_entropy_untouched_witness :
  occurs "/" "deny-dataset" = false
  /\ snd (GetPoliciesDecisions replay_Hex (requestFor "deny-dataset" (readTo "theshire")) "" world0)
     = {| logged := (logged world0 ++ requestLines (requestFor "deny-dataset" (readTo "theshire")))%list;
          entropy := entropy world0 |}.
Proof.
  split; [reflexivity|].
  apply (panic_leaves_entropy_untouched replay_Hex (requestFor "deny-dataset" (readTo "theshire")) "" world0).
  reflexivity.
Defined.

Lemma decisions_have_three_shapes_witness :
  fst (GetPoliciesDecisions replay_Hex (requestFor "catalog/deny-write" (writeTo "theshire")) "" world0)
  = Normal (Ok {| policymanager.DecisionID := "5f1d3c";
                  policymanager.Result := [ {| policymanager.Action' := Deny |} ] |})
  /\ (actions {| policymanager.DecisionID := "5f1d3c";
                 policymanager.Result := [ {| policymanager.Action' := Deny |} ] |} = []
      \/ actions {| policymanager.DecisionID := "5f1d3c";
                    policymanager.Result := [ {| policymanager.Action' := Deny |} ] |} = [Deny]
      \/ actions {| policymanager.DecisionID := "5f1d3c";
                    policymanager.Result := [ {| policymanager.Action' := Deny |} ] |}
         = [Redact ["SSN"]]).
Proof.
  split; [reflexivity|].
  apply (decisions_have_three_shapes replay_Hex
           (requestFor "catalog/deny-write" (writeTo "theshire")) "" world0).
  reflexivity.
Defined.

Lemma deny_and_redact_exactly_when_witness :
  occurs "/" "catalog" = false
  /\ exists resp,
       fst (GetPoliciesDecisions replay_Hex
              (requestFor "catalog/allow-theshire" (writeTo "mordor")) "" world0) = Normal (Ok resp)
       /\ (Deny ∈ actions resp <->
           "allow-theshire" = "deny-dataset"
           \/ ("allow-theshire" = "allow-theshire"
               /\ policymanager.Destination (writeTo "mordor") <> "theshire")
           \/ ("allow-theshire" = "deny-write"
               /\ policymanager.ActionType (writeTo "mordor") = policymanager.WRITE))
       /\ (Redact ["SSN"] ∈ actions resp <-> "allow-theshire" ∉ specialAssets).
Proof.
  split; [reflexivity|].
  apply (deny_and_redact_exactly_when replay_Hex "catalog" "allow-theshire" (writeTo "mordor") "" world0).
  reflexivity.
Defined.

(** ** The port-forward retry loop of the notebook test *)

Section PortForwardProperties.
Context {Env Cmd : Type}
  (test_RunPortForward : string -> string -> Z -> Env -> (string * Cmd * option error) * Env)
  (test_StopPortForward : Cmd -> Env -> option error * Env).

Implicit Types (h : Host (Env := Env)) (ns svc : string) (port i : Z) (fuel : nat).

#[local] Abbreviation loop := (portForwardLoop test_RunPortForward test_StopPortForward).
#[local] Abbreviation RunPF :=
  (RunPortForwardCommandWithRetryAttemps test_RunPortForward test_StopPortForward).

Lemma int_add_small i : (0 <= i <= 26)%Z -> int_add i 1 = (i + 1)%Z.
Proof. intros Hi. unfold int_add. rewrite Z.mod_small; lia. Qed.

Lemma Ended_step ns svc port i p e r cs :
  (0 <= i <= 25)%Z ->
  Ended ns svc port (i + 1) r cs ->
  Ended ns svc port i r
    ([RanPortForward ns svc port p (Some e); StoppedPortForward None;
      Slept (PortForwardingDelay * time_Second)] ++ cs)%list.
Proof.
  intros Hi [fails q Hl | fails q e' Hl | fails q e' es Hl].
  - apply (Forwarded ns svc port i ((p, e) :: fails) q). cbn [List.length]. lia.
  - apply (GaveUp ns svc port i ((p, e) :: fails) q e'). cbn [List.length]. lia.
  - apply (StopFailed ns svc port i ((p, e) :: fails) q e' es). cbn [List.length]. lia.
Qed.

Lemma loop_ended fuel ns svc port i h :
  (0 <= i <= 26)%Z ->
  match fst (loop fuel ns svc port i h) with
  | None => (Z.of_nat fuel < 27 - i)%Z
  | Some r =>
      exists cs, calls (snd (loop fuel ns svc port i h)) = (calls h ++ cs)%list
                 /\ Ended ns svc port i r cs
  end.
Proof.
  revert i h. induction fuel as [|fuel IH]; intros i h Hi.
  - cbn. lia.
  - cbn [portForwardLoop].
    destruct (test_RunPortForward ns svc port (env h)) as [[[p cmd] [e|]] g]; cbn [env calls].
    + destruct (Z.gtb_spec i PortFowardingMaxRetryAttempts) as [Hgt | Hle];
        unfold PortFowardingMaxRetryAttempts in *.
      * cbn. eexists. split; [reflexivity|].
        apply (GaveUp ns svc port i [] p e). cbn. lia.
      * destruct (test_StopPortForward cmd g) as [[es|] g']; cbn [env calls].
        -- cbn. exists [RanPortForward ns svc port p (Some e); StoppedPortForward (Some es)].
           split; [by rewrite <- app_assoc|].
           apply (StopFailed ns svc port i [] p e es). cbn. lia.
        -- rewrite int_add_small by lia.
           match goal with |- context [loop fuel ns svc port (i + 1)%Z ?h3] =>
             specialize (IH (i + 1)%Z h3 ltac:(lia)); destruct (loop fuel ns svc port (i + 1)%Z h3) as [[r|] h']
           end; cbn [fst snd] in *.
           ++ destruct IH as (cs & Hcs & Hend). cbn [calls] in Hcs.
              eexists. split; [|apply (Ended_step ns svc port i p e r cs); [lia | exact Hend]].
              rewrite Hcs, <- !app_assoc. reflexivity.
           ++ lia.
    + cbn. eexists. split; [reflexivity|].
      apply (Forwarded ns svc port i [] p). cbn. lia.
Qed.


Lemma attempts_app cs1 cs2 : attempts (cs1 ++ cs2) = attempts cs1 + attempts cs2.
Proof. unfold attempts. by rewrite List.filter_app, List.length_app. Qed.

Lemma slept_app cs1 cs2 : slept (cs1 ++ cs2) = (slept cs1 + slept cs2)%Z.
Proof.
  unfold slept. induction cs1 as [|c cs1 IH]; cbn [app foldr]; [lia|].
  destruct c; lia.
Qed.

Lemma attempts_failed ns svc port (fails : list (string * error)) :
  attempts (List.concat (failedAttempt ns svc port <$> fails)) = List.length fails.
Proof.
  induction fails as [|a fails IH]; [done|].
  cbn [fmap list_fmap List.concat]. rewrite attempts_app, IH. reflexivity.
Qed.

Lemma slept_failed ns svc port (fails : list (string * error)) :
  slept (List.concat (failedAttempt ns svc port <$> fails))
  = (5000000000 * Z.of_nat (List.length fails))%Z.
Proof.
  induction fails as [|a fails IH]; [done|].
  cbn [fmap list_fmap List.concat]. rewrite slept_app, IH. cbn [List.length].
  change (slept (failedAttempt ns svc port a)) with 5000000000%Z. lia.
Qed.

Lemma Ended_counts ns svc port i r cs :
  (0 <= i)%Z ->
  Ended ns svc port i r cs ->
  1 <= attempts cs <= 27
  /\ slept cs = (5000000000 * (Z.of_nat (attempts cs) - 1))%Z.
Proof.
  intros Hi [fails q Hl | fails q e' Hl | fails q e' es Hl];
    rewrite attempts_app, slept_app, attempts_failed, slept_failed;
    cbn [attempts slept List.filter List.length foldr]; split; lia.
Qed.

Lemma loop_more_fuel fuel fuel' ns svc port i h :
  fuel <= fuel' ->
  fst (loop fuel ns svc port i h) <> None ->
  loop fuel' ns svc port i h = loop fuel ns svc port i h.
Proof.
  revert fuel' i h. induction fuel as [|fuel IH]; intros fuel' i h Hle Hsome; [done|].
  destruct fuel' as [|fuel']; [lia|].
  cbn [portForwardLoop] in *.
  destruct (test_RunPortForward ns svc port (env h)) as [[[p cmd] [e|]] g]; [|done].
  cbn [env calls] in *. destruct (i >? PortFowardingMaxRetryAttempts)%Z; [done|].
  destruct (test_StopPortForward cmd g) as [[es|] g']; [done|].
  cbn [env calls] in *. apply IH; [lia | done].
Qed.

(** X7: whatever the host does, twenty-seven iterations are enough for the
    loop to leave: with that much fuel or more the function returns, and
    returns the same. By then it has tried between one and twenty-seven
    forwards, and slept five seconds after each but the last. *)
Theorem port_forward_ends_within_27_attempts fuel ns svc port h :
  27 <= fuel ->
  RunPF fuel ns svc port h = RunPF 27 ns svc port h
  /\ exists r cs,
       fst (RunPF fuel ns svc port h) = Some r
       /\ calls (snd (RunPF fuel ns svc port h)) = (calls h ++ cs)%list
       /\ 1 <= attempts cs <= 27
       /\ slept cs = (5000000000 * (Z.of_nat (attempts cs) - 1))%Z.
Proof.
  intros Hfuel. unfold RunPortForwardCommandWithRetryAttemps.
  pose proof (loop_ended 27 ns svc port 0 h ltac:(lia)) as H27.
  assert (E : loop fuel ns svc port 0%Z h = loop 27 ns svc port 0%Z h).
  { apply loop_more_fuel; [done|]. intros HN. rewrite HN in H27. lia. }
  split; [exact E|]. rewrite E.
  destruct (fst (loop 27 ns svc port 0%Z h)) as [r|]; [|lia].
  destruct H27 as (cs & Hcs & Hend). exists r, cs. split; [done|]. split; [done|].
  by apply (Ended_counts ns svc port 0 r cs).
Qed.

(** X8: a returned port is the one the last forward reported, with no
    error; every forward before it failed, was stopped and was followed by a
    sleep of five seconds, and there were at most twenty-six of them. *)
Theorem port_forward_success_is_the_last_attempt fuel ns svc port h listenPort :
  fst (RunPF fuel ns svc port h) = Some (Ok listenPort) ->
  exists fails,
    List.length fails <= 26
    /\ calls (snd (RunPF fuel ns svc port h))
       = (calls h ++ List.concat (failedAttempt ns svc port <$> fails)
            ++ [RanPortForward ns svc port listenPort None])%list.
Proof.
  unfold RunPortForwardCommandWithRetryAttemps. intros E.
  pose proof (loop_ended fuel ns svc port 0 h ltac:(lia)) as H. rewrite E in H.
  destruct H as (cs & Hcs & Hend). inversion Hend as [fails q Hl | |]; subst.
  exists fails. split; [lia | done].
Qed.

(** X9: the function gives up only after twenty-seven failed forwards, one
    more than [PortFowardingMaxRetryAttempts] retries after the first try:
    twenty-six were stopped and slept after, 130 seconds in all; the last one
    is not stopped. *)
Theorem port_forward_gives_up_after_27_attempts fuel ns svc port h :
  fst (RunPF fuel ns svc port h)
    = Some (Err (errorString "Port Forwarding command failed with error")) ->
  exists fails p e,
    List.length fails = 26
    /\ calls (snd (RunPF fuel ns svc port h))
       = (calls h ++ List.concat (failedAttempt ns svc port <$> fails)
            ++ [RanPortForward ns svc port p (Some e)])%list
    /\ attempts (List.concat (failedAttempt ns svc port <$> fails)
                 ++ [RanPortForward ns svc port p (Some e)]) = 27
    /\ slept (List.concat (failedAttempt ns svc port <$> fails)
              ++ [RanPortForward ns svc port p (Some e)]) = 130000000000%Z.
Proof.
  unfold RunPortForwardCommandWithRetryAttemps. intros E.
  pose proof (loop_ended fuel ns svc port 0 h ltac:(lia)) as H. rewrite E in H.
  destruct H as (cs & Hcs & Hend).
  inversion Hend as [ | fails q e' Hl | ]; subst.
  exists fails, q, e'. split; [lia|]. split; [done|].
  rewrite attempts_app, slept_app, attempts_failed, slept_failed.
  cbn [attempts slept List.filter List.length foldr]. split; lia.
Qed.

(** X10: any other error the function returns comes from a failed
    [StopPortForward]: it carries that error's message after
    ["failed to terminate port-forward "], it is returned at once, with no
    sleep and no further forward, and at most twenty-five recovered attempts
    came before. *)
Theorem port_forward_stop_failure_is_returned fuel ns svc port h err :
  fst (RunPF fuel ns svc port h) = Some (Err err) ->
  err <> errorString "Port Forwarding command failed with error" ->
  exists fails p e es,
    err = errorString ("failed to terminate port-forward " +:+ Error es)
    /\ List.length fails <= 25
    /\ calls (snd (RunPF fuel ns svc port h))
       = (calls h ++ List.concat (failedAttempt ns svc port <$> fails)
            ++ [RanPortForward ns svc port p (Some e); StoppedPortForward (Some es)])%list.
Proof.
  unfold RunPortForwardCommandWithRetryAttemps. intros E Hne.
  pose proof (loop_ended fuel ns svc port 0 h ltac:(lia)) as H. rewrite E in H.
  destruct H as (cs & Hcs & Hend).
  inversion Hend as [ | fails q e' Hl | fails q e' es Hl Hmsg]; subst.
  - done.
  - exists fails, q, e', es. split; [done|]. split; [lia | done].
Qed.

End PortForwardProperties.

Lemma port_forward_ends_within_27_attempts_witness :
  27 <= 40
  /\ (RunPortForwardCommandWithRetryAttemps (flakyRun 2) (stopWith false) 40 "fybrik-blueprints" "my-notebook" 80 host0
      = RunPortForwardCommandWithRetryAttemps (flakyRun 2) (stopWith false) 27 "fybrik-blueprints" "my-notebook" 80 host0
      /\ exists r cs,
           fst (RunPortForwardCommandWithRetryAttemps (flakyRun 2) (stopWith false) 40
                  "fybrik-blueprints" "my-notebook" 80 host0) = Some r
           /\ calls (snd (RunPortForwardCommandWithRetryAttemps (flakyRun 2) (stopWith false) 40
                            "fybrik-blueprints" "my-notebook" 80 host0)) = (calls host0 ++ cs)%list
           /\ 1 <= attempts cs <= 27
           /\ slept cs = (5000000000 * (Z.of_nat (attempts cs) - 1))%Z).
Proof.
  split; [lia|].
  apply (port_forward_ends_within_27_attempts (flakyRun 2) (stopWith false) 40
           "fybrik-blueprints" "my-notebook" 80 host0). lia.
Defined.

Lemma port_forward_success_is_the_last_attempt_witness :
  fst (RunPortForwardCommandWithRetryAttemps (flakyRun 2) (stopWith false) 27
         "fybrik-blueprints" "my-notebook" 80 host0) = Some (Ok "8080")
  /\ exists fails,
       List.length fails <= 26
       /\ calls (snd (RunPortForwardCommandWithRetryAttemps (flakyRun 2) (stopWith false) 27
                        "fybrik-blueprints" "my-notebook" 80 host0))
          = (calls host0
             ++ List.concat (failedAttempt "fybrik-blueprints" "my-notebook" 80 <$> fails)
             ++ [RanPortForward "fybrik-blueprints" "my-notebook" 80 "8080" None])%list.
Proof.
  split; [reflexivity|].
  apply (port_forward_success_is_the_last_attempt (flakyRun 2) (stopWith false) 27
           "fybrik-blueprints" "my-notebook" 80 host0 "8080").
  reflexivity.
Defined.

Lemma port_forward_gives_up_after_27_attempts_witness :
  fst (RunPortForwardCommandWithRetryAttemps (flakyRun 27) (stopWith false) 27
         "fybrik-blueprints" "my-notebook" 80 host0)
  = Some (Err (errorString "Port Forwarding command failed with error"))
  /\ exists fails p e,
       List.length fails = 26
       /\ calls (snd (RunPortForwardCommandWithRetryAttemps (flakyRun 27) (stopWith false) 27
                        "fybrik-blueprints" "my-notebook" 80 host0))
          = (calls host0
             ++ List.concat (failedAttempt "fybrik-blueprints" "my-notebook" 80 <$> fails)
             ++ [RanPortForward "fybrik-blueprints" "my-notebook" 80 p (Some e)])%list
       /\ attempts (List.concat (failedAttempt "fybrik-blueprints" "my-notebook" 80 <$> fails)
                    ++ [RanPortForward "fybrik-blueprints" "my-notebook" 80 p (Some e)]) = 27
       /\ slept (List.concat (failedAttempt "fybrik-blueprints" "my-notebook" 80 <$> fails)
                 ++ [RanPortForward "fybrik-blueprints" "my-notebook" 80 p (Some e)])
          = 130000000000%Z.
Proof.
  split; [vm_compute; reflexivity|].
  apply (port_forward_gives_up_after_27_attempts (flakyRun 27) (stopWith false) 27
           "fybrik-blueprints" "my-notebook" 80 host0).
  vm_compute; reflexivity.
Defined.

Lemma port_forward_stop_failure_is_returned_witness :
  fst (RunPortForwardCommandWithRetryAttemps (flakyRun 2) (stopWith true) 27
         "fybrik-blueprints" "my-notebook" 80 host0)
  = Some (Err (errorString "failed to terminate port-forward no such process"))
  /\ errorString "failed to terminate port-forward no such process"
     <> errorString "Port Forwarding command failed with error"
  /\ exists fails p e es,
       errorString "failed to terminate port-forward no such process"
       = errorString ("failed to terminate port-forward " +:+ Error es)
       /\ List.length fails <= 25
       /\ calls (snd (RunPortForwardCommandWithRetryAttemps (flakyRun 2) (stopWith true) 27
                        "fybrik-blueprints" "my-notebook" 80 host0))
          = (calls host0
             ++ List.concat (failedAttempt "fybrik-blueprints" "my-notebook" 80 <$> fails)
             ++ [RanPortForward "fybrik-blueprints" "my-notebook" 80 p (Some e);
                 StoppedPortForward (Some es)])%list.
Proof.
  split; [reflexivity|]. split; [discriminate|].
  apply (port_forward_stop_failure_is_returned (flakyRun 2) (stopWith true) 27
           "fybrik-blueprints" "my-notebook" 80 host0); [reflexivity | discriminate].
Defined.

(** ** The service name of a module's hostname *)

Section ServiceName.

Implicit Types (s svc ns rest : string) (c : ascii).

Lemma prefix_app s rest : String.prefix s (s +:+ rest) = true.
Proof. apply String.prefix_correct. apply upto_app. Qed.

Lemma prefix_other c c' s t : c <> c' -> String.prefix (String c s) (String c' t) = false.
Proof.
  intros Hne.
  change (String.prefix (String c s) (String c' t))
    with (match ascii_dec c c' with left _ => String.prefix s t | right _ => false end).
  by destruct (ascii_dec c c').
Qed.

Lemma Index_dot svc ns rest :
  occurs "." svc = false ->
  strings.Index (svc +:+ String "." (ns +:+ rest)) (String "." ns) = Some (String.length svc).
Proof.
  unfold strings.Index. induction svc as [|c svc IH]; intros H.
  - change (String.index 0 (String "." ns) ("" +:+ String "." (ns +:+ rest)))
      with (if String.prefix (String "." ns) (String "." (ns +:+ rest)) then Some 0
            else match String.index 0 (String "." ns) (ns +:+ rest) with
                 | Some n => Some (S n) | None => None end).
    change (String "." (ns +:+ rest)) with (String "." ns +:+ rest).
    by rewrite (prefix_app (String "." ns) rest).
  - apply orb_false_iff in H as [Hc Hs]. apply Ascii.eqb_neq in Hc.
    change (String.index 0 (String "." ns) (String c svc +:+ String "." (ns +:+ rest)))
      with (if String.prefix (String "." ns) (String c (svc +:+ String "." (ns +:+ rest)))
            then Some 0
            else match String.index 0 (String "." ns) (svc +:+ String "." (ns +:+ rest)) with
                 | Some n => Some (S n) | None => None end).
    rewrite prefix_other by congruence. by rewrite (IH Hs).
Qed.

Lemma from_length_app s rest : strings.from (String.length s) (s +:+ rest) = rest.
Proof.
  unfold strings.from. rewrite length_app.
  replace (String.length s + String.length rest - String.length s)
    with (String.length rest) by lia.
  induction s as [|c s IH]; simpl; [apply substring_all | exact IH].
Qed.

Lemma append_assoc s t rest : (s +:+ t) +:+ rest = s +:+ (t +:+ rest).
Proof.
  induction s as [|c s IH]; [done|].
  change (String c ((s +:+ t) +:+ rest) = String c (s +:+ (t +:+ rest))). by f_equal.
Qed.

Lemma append_nil_r s : s +:+ "" = s.
Proof.
  induction s as [|c s IH]; [done|].
  change (String c (s +:+ "") = String c s). by f_equal.
Qed.

Lemma from_after svc ns rest :
  strings.from (String.length svc + String.length (String "." ns))
    (svc +:+ String "." (ns +:+ rest)) = rest.
Proof.
  rewrite <- length_app.
  change (svc +:+ String "." (ns +:+ rest)) with (svc +:+ String "." ns +:+ rest).
  rewrite <- append_assoc. apply from_length_app.
Qed.

(** X11: for a hostname made of a service name with no ['.'] in it, then
    ['.'] and the modules' namespace, then anything, [svcName] is the service
    name followed by what came after the namespace; for the hostname
    [svc.namespace] it is [svc]. *)
Theorem svcName_strips_the_namespace svc ns rest :
  occurs "." svc = false ->
  svcName (svc +:+ "." +:+ ns +:+ rest) ns = svc +:+ rest
  /\ svcName (svc +:+ "." +:+ ns) ns = svc.
Proof.
  intros H.
  assert (Hgen : forall r, svcName (svc +:+ "." +:+ ns +:+ r) ns = svc +:+ r).
  { intros r. unfold svcName, strings.Replace.
    change ("." +:+ ns) with (String "." ns).
    change ("." +:+ ns +:+ r) with (String "." (ns +:+ r)).
    cbn [String.eqb strings.Replace_loop].
    by rewrite (Index_dot svc ns r H), upto_app, from_after. }
  split; [apply Hgen|].
  specialize (Hgen ""). by rewrite !append_nil_r in Hgen.
Qed.

End ServiceName.

Lemma svcName_strips_the_namespace_witness :
  occurs "." "my-notebook-read-flow" = false
  /\ (svcName "my-notebook-read-flow.fybrik-blueprints.svc.cluster.local" "fybrik-blueprints"
        = "my-notebook-read-flow.svc.cluster.local"
      /\ svcName "my-notebook-read-flow.fybrik-blueprints" "fybrik-blueprints"
         = "my-notebook-read-flow").
Proof.
  split; [reflexivity|].
  apply (svcName_strips_the_namespace "my-notebook-read-flow" "fybrik-blueprints" ".svc.cluster.local").
  reflexivity.
Defined.

(** ** Where a dataset ID is cut *)

(** X12: line 47 cuts a dataset ID in two exactly when it has a ['/'], and
    then at the first one: the parts are [ns] and [name] if and only if the
    ID is [ns], ['/'], [name] with no ['/'] in [ns]. Nothing of the ID is
    lost, [ns] or [name] may be empty, and [name] may hold further ['/']. *)
Theorem id_is_cut_at_its_first_slash (id ns name : string) :
  strings.SplitN id "/" 2 = [ns; name]
  <-> id = ns +:+ "/" +:+ name /\ occurs "/" ns = false.
Proof.
  split.
  - intros E. destruct (occurs "/" id) eqn:Hid.
    + apply occurs_split in Hid as (a & b & -> & Ha).
      rewrite (SplitN_wellformed a b Ha) in E. by injection E as -> ->.
    + rewrite (SplitN_malformed id Hid) in E. discriminate E.
  - intros [-> H]. exact (SplitN_wellformed ns name H).
Qed.
